(** * datastreamX: the article service, its cache-aside read path,
      the HTTP handler and the database session provider.

    A shallow embedding of

      - src/usecases/article_usecase.py         ([ArticleUseCase])
      - src/adapters/persistence/article_repo.py ([ArticleRepository])
      - src/adapters/api/article_controller.py   ([ArticleController])
      - src/infrastructure/database.py           ([Database])

    Python values are a small inductive type with Python's truth test,
    the cache is a finite map from string keys to values, the collaborators'
    state is threaded explicitly through a state monad, and every call on
    a collaborator is recorded in a call log (the "store call counter" the
    specification asks tests to use). *)

From stdpp Require Import base gmap strings pretty list.

Open Scope Z_scope.

(** ** Values *)

(** Modelled from the spec: [domain/models.py] is not part of the sources.
    The specification gives [Article] as a plain data holder
    { id: optional integer (absent until persisted), title, content }. *)
Module Article.
Record t : Type := mk { id : option Z; title : string; content : string }.
End Article.

(** The Python values that flow through the service: what a cache can
    hold, what the use case returns and what the handler builds. *)
#[warnings="-register-all"]
Inductive pyval : Type :=
| PNone
| PBool (b : bool)
| PInt (n : Z)
| PStr (s : string)
| PArticle (a : Article.t)
| PTuple (xs : list pyval)
| PDict (kvs : list (string * pyval)).

(** Python's truth test, as applied by [if x:].  [None], [False], zero and
    empty strings and containers are false.  An [Article] instance is a
    plain object (no [__bool__], no [__len__]) and is always true. *)
Definition truthy (v : pyval) : bool :=
  match v with
  | PNone => false
  | PBool b => b
  | PInt n => negb (n =? 0)
  | PStr s => negb (String.eqb s "")
  | PArticle _ => true
  | PTuple xs => negb (Nat.eqb (length xs) 0)
  | PDict kvs => negb (Nat.eqb (length kvs) 0)
  end.

(** [Article | None] as a Python value. *)
Definition of_option (o : option Article.t) : pyval :=
  match o with
  | Some a => PArticle a
  | None => PNone
  end.

(** ** Collaborator state *)

(** Modelled from the spec: the SQLAlchemy session and the table behind it
    are outside the sources.  The store contract is
    [get_by_id(id) -> Article|absent] and [save(article) -> void], which
    assigns the id as a side effect.  The table is the list of persisted
    rows and [next_id] is the key the next insert receives. *)
Module Session.
Record t : Type := mk { rows : list Article.t; next_id : Z }.

(** [db.query(Article).filter(Article.id == article_id).first()] *)
Definition query_filter_first (article_id : Z) (s : t) : option Article.t :=
  head (filter (λ a, Article.id a = Some article_id) (rows s)).

(** [db.add(article); db.commit()].  The insert gives an article without
    id the next key; the Python object itself receives the id, so the
    object after the commit is returned with the new session state. *)
Definition add_commit (article : Article.t) (s : t) : Article.t * t :=
  match Article.id article with
  | None =>
      let article' :=
        Article.mk (Some (next_id s)) (Article.title article)
                   (Article.content article) in
      (article', mk (rows s ++ [article']) (next_id s + 1))
  | Some _ => (article, mk (rows s ++ [article]) (next_id s))
  end.
End Session.

(** Calls made on the two collaborators, in the order they happen. *)
Inductive Event : Type :=
| CacheGet (key : string)
| CacheSet (key : string) (value : pyval)
| StoreGetById (article_id : Z)
| StoreSave (article : Article.t).

Record World : Type := mkWorld {
  db : Session.t;
  cache : gmap string pyval;
  calls : list Event
}.

Definition log (e : Event) (w : World) : World :=
  mkWorld (db w) (cache w) (calls w ++ [e]).

(** ** A state monad over the collaborators *)

Definition St (A : Type) : Type := World → A * World.

#[export] Instance St_ret : MRet St := λ A a w, (a, w).
#[export] Instance St_bind : MBind St :=
  λ A B f m w, let '(a, w1) := m w in f a w1.

Definition is_store_call (e : Event) : bool :=
  match e with
  | StoreGetById _ | StoreSave _ => true
  | _ => false
  end.

Definition is_cache_call (e : Event) : bool :=
  match e with
  | CacheGet _ | CacheSet _ _ => true
  | _ => false
  end.

Definition is_save_call (e : Event) : bool :=
  match e with
  | StoreSave _ => true
  | _ => false
  end.

(** The calls a computation adds to the log when run from [w]. *)
Definition new_calls {A} (m : St A) (w : World) : list Event :=
  drop (length (calls w)) (calls (m w).2).

(** ** adapters/cache/cache_repo.py *)

(** Modelled from the spec: [CacheRepository] is not part of the sources.
    Its contract is [get(key: string) -> value|absent] and
    [set(key: string, value) -> void]; absent is Python's [None]. *)
Module CacheRepository.
Definition get (key : string) : St pyval :=
  λ w, (default PNone (cache w !! key), log (CacheGet key) w).

Definition set (key : string) (value : pyval) : St unit :=
  λ w, (tt, log (CacheSet key value)
                (mkWorld (db w) (<[key := value]> (cache w)) (calls w))).
End CacheRepository.

(** ** adapters/persistence/article_repo.py *)

Module ArticleRepository.
Definition get_by_id (article_id : Z) : St pyval :=
  λ w, (of_option (Session.query_filter_first article_id (db w)),
        log (StoreGetById article_id) w).

(** [save] mutates its argument (the id is assigned); the article after
    the call is handed back to the caller. *)
Definition save (article : Article.t) : St Article.t :=
  λ w, let '(article', s) := Session.add_commit article (db w) in
       (article', log (StoreSave article) (mkWorld s (cache w) (calls w))).
End ArticleRepository.

(** ** usecases/article_usecase.py *)

Module ArticleUseCase.
(** [f"article:{article_id}"] *)
Definition article_key (article_id : Z) : string :=
  "article:" +:+ pretty article_id.

Definition get_article (article_id : Z) : St pyval :=
  cached_article ← CacheRepository.get (article_key article_id);
  if truthy cached_article then mret cached_article
  else
    article ← ArticleRepository.get_by_id article_id;
    _ ← (if truthy article
         then CacheRepository.set (article_key article_id) article
         else mret tt);
    mret article.

Definition create_article (title content : string) : St Article.t :=
  let article := Article.mk None title content in
  article ← ArticleRepository.save article;
  mret article.
End ArticleUseCase.

(** ** adapters/api/article_controller.py *)

Module ArticleController.
(** The handler of [GET /articles/{id}]: its Python return value. *)
Definition get_article (id : Z) : St pyval :=
  article ← ArticleUseCase.get_article id;
  if truthy article
  then mret (PDict [("data", article)])
  else mret (PTuple [PDict [("error", PStr "Article not found")]; PInt 404]).

(** What the HTTP client receives.  The route is declared as
    [@router.get("/articles/{id}")] on a FastAPI [APIRouter]: the
    decorator names no [status_code], and the handler neither builds a
    response object nor raises an HTTP exception.  FastAPI answers such
    a route with its default status, 200, and the JSON encoding of the
    returned value as the body (a tuple is encoded as an array). *)
Record Response : Type := mkResponse { status_code : Z; body : pyval }.

Definition route_status_code : option Z := None.

Definition respond (returned : pyval) : Response :=
  mkResponse (default 200 route_status_code) returned.

Definition endpoint (id : Z) (w : World) : Response * World :=
  let '(returned, w1) := get_article id w in (respond returned, w1).
End ArticleController.

(** ** infrastructure/database.py *)

Module Database.
(** The sessions handed out by [SessionLocal]: how many were made, which
    are open, and the [close] calls so far. *)
Record Sessions : Type := mkSessions {
  made : nat;
  live : gset nat;
  closes : list nat
}.

Definition SessionLocal (s : Sessions) : nat * Sessions :=
  (made s, mkSessions (S (made s)) ({[made s]} ∪ live s) (closes s)).

Definition close (db : nat) (s : Sessions) : Sessions :=
  mkSessions (made s) (live s ∖ {[db]}) (closes s ++ [db]).

(** Where the generator [get_db] stands. *)
Inductive Frame : Type :=
| Unstarted
| AtYield (db : nat)
| Finished.

(** How its consumer resumes it: [next(g)], [g.throw(exc)] (the request
    failed) or [g.close()]. *)
Inductive Resume : Type :=
| Next
| Throw (exc : string)
| Close.

(** What the resumption gives back to the consumer. *)
Inductive Outcome : Type :=
| Yield (db : nat)
| StopIteration
| Raise (exc : string)
| Return.

(** One resumption of
<<
    def get_db():
        db = SessionLocal()
        try:
            yield db
        finally:
            db.close()
>>
    At the [yield] every way of leaving the [try] block runs the
    [finally] clause first. *)
Definition get_db (r : Resume) (f : Frame) (s : Sessions)
  : Outcome * Frame * Sessions :=
  match f, r with
  | Unstarted, Next =>
      let '(db, s1) := SessionLocal s in (Yield db, AtYield db, s1)
  | Unstarted, Throw exc => (Raise exc, Finished, s)
  | Unstarted, Close => (Return, Finished, s)
  | AtYield db, Next => (StopIteration, Finished, close db s)
  | AtYield db, Throw exc => (Raise exc, Finished, close db s)
  | AtYield db, Close => (Return, Finished, close db s)
  | Finished, Next => (StopIteration, Finished, s)
  | Finished, Throw exc => (Raise exc, Finished, s)
  | Finished, Close => (Return, Finished, s)
  end.

(** A whole life of the generator: a sequence of resumptions. *)
Fixpoint run (rs : list Resume) (f : Frame) (s : Sessions)
  : Frame * Sessions :=
  match rs with
  | [] => (f, s)
  | r :: rs' => let '(_, f1, s1) := get_db r f s in run rs' f1 s1
  end.
End Database.

(** ** Coherent states *)

(** The states the service itself builds from a database with an empty
    cache: every row has an id below the next key, and every cache entry
    is a copy, under its article's key, of what the store answers for
    that id. *)
Definition coherent (w : World) : Prop :=
  (∀ a, a ∈ Session.rows (db w) →
        ∃ i, Article.id a = Some i ∧ i < Session.next_id (db w))
  ∧ (∀ k v, cache w !! k = Some v →
            ∃ i a, k = ArticleUseCase.article_key i ∧ v = PArticle a
                   ∧ Session.query_filter_first i (db w) = Some a).

(** ** Sequences of service calls *)

(** A call on the service: [get_article(id)] or
    [create_article(title, content)]. *)
Inductive Op : Type :=
| OpGet (article_id : Z)
| OpCreate (title content : string).

Definition run_op (o : Op) (w : World) : World :=
  match o with
  | OpGet article_id => (ArticleUseCase.get_article article_id w).2
  | OpCreate title content =>
      (ArticleUseCase.create_article title content w).2
  end.

(** The calls of [ops], one after the other, from [w]. *)
Definition run_ops (ops : list Op) (w : World) : World :=
  foldl (λ w o, run_op o w) w ops.

(** ** Sample states *)

Definition article5 : Article.t := Article.mk (Some 5) "Go" "Intro".

Definition store5 : Session.t := Session.mk [article5] 6.

Definition empty_world : World := mkWorld (Session.mk [] 1) ∅ [].

Definition world5 : World := mkWorld store5 ∅ [].

(** The cache already answers for id 5, with another article than the
    store's. *)
Definition cached5 : Article.t := Article.mk (Some 5) "Go" "Stale".

Definition world5_cached : World :=
  mkWorld store5 {[ "article:5" := PArticle cached5 ]} [].

(** The cache holds an empty string under the key of id 5. *)
Definition world5_falsy : World :=
  mkWorld store5 {[ "article:5" := PStr "" ]} [].

(** A cache that outlived its database: an entry under [article:1] while
    the table is empty and the next key is 1. *)
Definition world_stale : World :=
  mkWorld (Session.mk [] 1)
          {[ "article:1" := PArticle (Article.mk (Some 1) "Old" "Old") ]} [].

(** * Properties *)

Example article_key_5 : ArticleUseCase.article_key 5 = "article:5".
Proof. reflexivity. Qed.

Example article_key_neg : ArticleUseCase.article_key (-12) = "article:-12".
Proof. reflexivity. Qed.

Lemma truthy_of_option o : truthy (of_option o) = bool_decide (is_Some o).
Proof. by destruct o. Qed.

Lemma new_calls_app {A} (m : St A) w es :
  calls (m w).2 = calls w ++ es → new_calls m w = es.
Proof. intros E. unfold new_calls. by rewrite E, drop_app_length. Qed.

(** ** The three paths of [get_article] *)

Section get_article_paths.
Import ArticleUseCase.
Variables (article_id : Z) (w : World).
Let key := article_key article_id.

(** Line 12-13: a true cached value is returned at once. *)
Lemma get_article_hit v :
  cache w !! key = Some v → truthy v = true →
  get_article article_id w = (v, log (CacheGet key) w).
Proof.
  intros Hc Ht. unfold get_article, mbind, St_bind, CacheRepository.get.
  fold key. rewrite Hc. simpl. by rewrite Ht.
Qed.

(** Lines 15-18 with an article in the store. *)
Lemma get_article_fill a :
  truthy (default PNone (cache w !! key)) = false →
  Session.query_filter_first article_id (db w) = Some a →
  get_article article_id w =
    (PArticle a,
     mkWorld (db w) (<[key := PArticle a]> (cache w))
             (calls w ++ [CacheGet key; StoreGetById article_id;
                          CacheSet key (PArticle a)])).
Proof.
  intros Hc Hs. unfold get_article, mbind, St_bind, CacheRepository.get.
  fold key. rewrite Hc. unfold ArticleRepository.get_by_id. simpl.
  rewrite Hs. simpl. unfold CacheRepository.set, log. simpl.
  by rewrite <- !app_assoc.
Qed.

(** Lines 15-18 with nothing in the store. *)
Lemma get_article_absent :
  truthy (default PNone (cache w !! key)) = false →
  Session.query_filter_first article_id (db w) = None →
  get_article article_id w =
    (PNone,
     mkWorld (db w) (cache w)
             (calls w ++ [CacheGet key; StoreGetById article_id])).
Proof.
  intros Hc Hs. unfold get_article, mbind, St_bind, CacheRepository.get.
  fold key. rewrite Hc. unfold ArticleRepository.get_by_id. simpl.
  rewrite Hs. simpl. unfold log. simpl. by rewrite <- !app_assoc.
Qed.
End get_article_paths.

Lemma truthy_absent (c : gmap string pyval) key :
  c !! key = None → truthy (default PNone (c !! key)) = false.
Proof. by intros ->. Qed.

Lemma truthy_falsy (c : gmap string pyval) key v :
  c !! key = Some v → truthy v = false →
  truthy (default PNone (c !! key)) = false.
Proof. by intros ->. Qed.

(** Whatever the state, [get_article] ends in one of its three paths. *)
Lemma get_article_cases article_id w :
  let key := ArticleUseCase.article_key article_id in
  (∃ v, cache w !! key = Some v ∧ truthy v = true ∧
        ArticleUseCase.get_article article_id w = (v, log (CacheGet key) w))
  ∨ (∃ a, truthy (default PNone (cache w !! key)) = false ∧
          Session.query_filter_first article_id (db w) = Some a ∧
          ArticleUseCase.get_article article_id w =
            (PArticle a,
             mkWorld (db w) (<[key := PArticle a]> (cache w))
                     (calls w ++ [CacheGet key; StoreGetById article_id;
                                  CacheSet key (PArticle a)])))
  ∨ (truthy (default PNone (cache w !! key)) = false ∧
     Session.query_filter_first article_id (db w) = None ∧
     ArticleUseCase.get_article article_id w =
       (PNone,
        mkWorld (db w) (cache w)
                (calls w ++ [CacheGet key; StoreGetById article_id]))).
Proof.
  intros key.
  destruct (truthy (default PNone (cache w !! key))) eqn:Ht.
  - left. destruct (cache w !! key) as [v|] eqn:Hc; [|done].
    exists v. split_and!; [done..|]. by apply get_article_hit.
  - destruct (Session.query_filter_first article_id (db w)) as [a|] eqn:Hs.
    + right; left. exists a. split_and!; [done..|].
      by apply get_article_fill.
    + right; right. split_and!; [done..|]. by apply get_article_absent.
Qed.

(** ** Read-through *)

(** C1. When the store has an article for the id and the cache has no
    entry under ["article:" + id], [get_article] returns that article,
    and it has called [set] on the cache with that key and article, after
    the store lookup: the cache afterwards holds the article under the
    key. *)
Theorem get_article_read_through article_id a w :
  Session.query_filter_first article_id (db w) = Some a →
  cache w !! ArticleUseCase.article_key article_id = None →
  let key := ArticleUseCase.article_key article_id in
  let '(result, w') := ArticleUseCase.get_article article_id w in
  result = PArticle a
  ∧ cache w' !! key = Some (PArticle a)
  ∧ new_calls (ArticleUseCase.get_article article_id) w
    = [CacheGet key; StoreGetById article_id; CacheSet key (PArticle a)].
Proof.
  intros Hs Hc key.
  pose proof (get_article_fill article_id w a (truthy_absent _ _ Hc) Hs) as E.
  rewrite E. split_and!; [done | apply lookup_insert_eq |].
  apply new_calls_app. by rewrite E.
Qed.

Lemma get_article_read_through_witness :
  let '(result, w') := ArticleUseCase.get_article 5 world5 in
  result = PArticle article5
  ∧ cache w' !! "article:5" = Some (PArticle article5)
  ∧ new_calls (ArticleUseCase.get_article 5) world5
    = [CacheGet "article:5"; StoreGetById 5;
       CacheSet "article:5" (PArticle article5)].
Proof.
  exact (get_article_read_through 5 article5 world5 eq_refl eq_refl).
Defined.

(** After a read-through the next call is served by the cache alone. *)
Lemma get_article_second_call article_id a w :
  Session.query_filter_first article_id (db w) = Some a →
  cache w !! ArticleUseCase.article_key article_id = None →
  let w1 := (ArticleUseCase.get_article article_id w).2 in
  (ArticleUseCase.get_article article_id w1).1 = PArticle a
  ∧ filter is_store_call (new_calls (ArticleUseCase.get_article article_id) w1)
    = [].
Proof.
  intros Hs Hc w1.
  pose proof (get_article_fill article_id w a (truthy_absent _ _ Hc) Hs) as E.
  assert (Hc1 : cache w1 !! ArticleUseCase.article_key article_id
                = Some (PArticle a)).
  { unfold w1. rewrite E. apply lookup_insert_eq. }
  pose proof (get_article_hit article_id w1 _ Hc1 eq_refl) as E1.
  split; [by rewrite E1|].
  by rewrite (new_calls_app _ _ [CacheGet (ArticleUseCase.article_key article_id)])
    by (by rewrite E1).
Qed.

(** ** Cache precedence *)

(** C2, as stated, fails: with an empty string cached under [article:5]
    and article 5 in the store, [get_article 5] does not return the
    cached value and does query the store. *)
Lemma get_article_present_not_returned :
  cache world5_falsy !! ArticleUseCase.article_key 5 = Some (PStr "")
  ∧ (ArticleUseCase.get_article 5 world5_falsy).1 ≠ PStr ""
  ∧ StoreGetById 5 ∈ new_calls (ArticleUseCase.get_article 5) world5_falsy.
Proof.
  split_and!.
  - reflexivity.
  - vm_compute. discriminate.
  - vm_compute. apply list_elem_of_In. simpl. tauto.
Qed.

(** C2, amended. When the cache holds a value that is true under Python's
    truth test under ["article:" + id], [get_article] returns that value
    and makes no call on the store, whatever the store holds for the id;
    the only call is the cache lookup, and neither state changes. *)
Theorem get_article_cache_precedence article_id v w :
  cache w !! ArticleUseCase.article_key article_id = Some v →
  truthy v = true →
  let '(result, w') := ArticleUseCase.get_article article_id w in
  result = v
  ∧ new_calls (ArticleUseCase.get_article article_id) w
    = [CacheGet (ArticleUseCase.article_key article_id)]
  ∧ filter is_store_call (new_calls (ArticleUseCase.get_article article_id) w)
    = []
  ∧ cache w' = cache w ∧ db w' = db w.
Proof.
  intros Hc Ht.
  pose proof (get_article_hit article_id w v Hc Ht) as E. rewrite E.
  assert (N : new_calls (ArticleUseCase.get_article article_id) w
              = [CacheGet (ArticleUseCase.article_key article_id)]).
  { apply new_calls_app. by rewrite E. }
  rewrite N. by split_and!.
Qed.

Lemma get_article_cache_precedence_witness :
  Session.query_filter_first 5 (db world5_cached) = Some article5
  ∧ let '(result, w') := ArticleUseCase.get_article 5 world5_cached in
    result = PArticle cached5
    ∧ new_calls (ArticleUseCase.get_article 5) world5_cached
      = [CacheGet "article:5"]
    ∧ filter is_store_call
        (new_calls (ArticleUseCase.get_article 5) world5_cached) = []
    ∧ cache w' = cache world5_cached ∧ db w' = db world5_cached.
Proof.
  split; [reflexivity|].
  exact (get_article_cache_precedence 5 (PArticle cached5) world5_cached
           eq_refl eq_refl).
Defined.

(** ** Absent articles *)

(** C3. When neither the cache nor the store has the id, [get_article]
    returns [None] and leaves the cache as it was; the key is still
    absent. *)
Theorem get_article_absent_not_cached article_id w :
  cache w !! ArticleUseCase.article_key article_id = None →
  Session.query_filter_first article_id (db w) = None →
  let '(result, w') := ArticleUseCase.get_article article_id w in
  result = PNone
  ∧ cache w' = cache w
  ∧ cache w' !! ArticleUseCase.article_key article_id = None
  ∧ filter is_cache_call (new_calls (ArticleUseCase.get_article article_id) w)
    = [CacheGet (ArticleUseCase.article_key article_id)].
Proof.
  intros Hc Hs.
  pose proof (get_article_absent article_id w (truthy_absent _ _ Hc) Hs) as E.
  rewrite E. simpl. split_and!; [done..|].
  by rewrite (new_calls_app _ _ _ (f_equal (λ p, calls p.2) E)).
Qed.

Lemma get_article_absent_not_cached_witness :
  let '(result, w') := ArticleUseCase.get_article 7 empty_world in
  result = PNone
  ∧ cache w' = cache empty_world
  ∧ cache w' !! "article:7" = None
  ∧ filter is_cache_call (new_calls (ArticleUseCase.get_article 7) empty_world)
    = [CacheGet "article:7"].
Proof.
  exact (get_article_absent_not_cached 7 empty_world eq_refl eq_refl).
Defined.

(** ** The handler *)

(** The handler answers a true result of the service with the dictionary
    [{"data": article}]. *)
Lemma handler_found id w :
  truthy (ArticleUseCase.get_article id w).1 = true →
  (ArticleController.get_article id w).1
  = PDict [("data", (ArticleUseCase.get_article id w).1)].
Proof.
  intros Ht. unfold ArticleController.get_article, mbind, St_bind.
  destruct (ArticleUseCase.get_article id w) as [r w1]. simpl in *.
  by rewrite Ht.
Qed.

(** On [None] from the service it returns a pair: the error dictionary
    and the integer 404. *)
Lemma handler_not_found id w :
  (ArticleUseCase.get_article id w).1 = PNone →
  (ArticleController.get_article id w).1
  = PTuple [PDict [("error", PStr "Article not found")]; PInt 404].
Proof.
  intros Hn. unfold ArticleController.get_article, mbind, St_bind.
  destruct (ArticleUseCase.get_article id w) as [r w1]. simpl in *.
  by rewrite Hn.
Qed.

(** The service never hands the handler anything but a true value or
    [None]. *)
Lemma get_article_result id w :
  truthy (ArticleUseCase.get_article id w).1 = true
  ∨ (ArticleUseCase.get_article id w).1 = PNone.
Proof.
  destruct (get_article_cases id w) as [(v & _ & Ht & E)|[(a & _ & _ & E)|(_ & _ & E)]];
    rewrite E; simpl; auto.
Qed.

(** C4, the miss: [GET /articles/7] with nothing in the store or cache.
    The handler returns the tuple [({"error": "Article not found"}, 404)];
    the route gives it no way to set the status, so the client receives
    status 200 and the two-element array as the body, not status 404 with
    the error dictionary as the body. *)
Theorem endpoint_not_found_status :
  (ArticleUseCase.get_article 7 empty_world).1 = PNone
  ∧ (ArticleController.get_article 7 empty_world).1
    = PTuple [PDict [("error", PStr "Article not found")]; PInt 404]
  ∧ ArticleController.status_code (ArticleController.endpoint 7 empty_world).1
    = 200
  ∧ ArticleController.body (ArticleController.endpoint 7 empty_world).1
    ≠ PDict [("error", PStr "Article not found")].
Proof.
  split_and!; [reflexivity..|]. vm_compute. discriminate.
Qed.

(** ** Creation *)

(** C5. [create_article title content] builds an article without id,
    makes one call on the store, [save], with that article, and returns
    an article with an id and with the given title and content; the
    returned article is the new last row of the store. *)
Theorem create_article_persisted title content w :
  let '(article, w') := ArticleUseCase.create_article title content w in
  is_Some (Article.id article)
  ∧ Article.id article = Some (Session.next_id (db w))
  ∧ Article.title article = title
  ∧ Article.content article = content
  ∧ new_calls (ArticleUseCase.create_article title content) w
    = [StoreSave (Article.mk None title content)]
  ∧ Session.rows (db w') = Session.rows (db w) ++ [article].
Proof.
  unfold new_calls.
  unfold ArticleUseCase.create_article, mbind, St_bind, ArticleRepository.save.
  simpl. split_and!; [by eexists | done.. | | done].
  by rewrite drop_app_length.
Qed.

(** C6, first half: [create_article] makes no call on the cache and leaves
    it as it was. *)
Lemma create_article_cache_frame title content w :
  cache (ArticleUseCase.create_article title content w).2 = cache w
  ∧ filter is_cache_call
      (new_calls (ArticleUseCase.create_article title content) w) = [].
Proof.
  unfold new_calls.
  unfold ArticleUseCase.create_article, mbind, St_bind, ArticleRepository.save.
  simpl. split; [done|]. by rewrite drop_app_length.
Qed.

(** C6, as stated, fails in its second half: when the cache already holds
    an article under the key of the id the store assigns next, the
    [get_article] that follows [create_article] is served by the cache
    and makes no call on the store. *)
Lemma create_then_get_served_by_cache :
  let '(article, w1) := ArticleUseCase.create_article "T" "C" world_stale in
  Article.id article = Some 1
  ∧ cache w1 = cache world_stale
  ∧ (ArticleUseCase.get_article 1 w1).1
    = PArticle (Article.mk (Some 1) "Old" "Old")
  ∧ new_calls (ArticleUseCase.get_article 1) w1 = [CacheGet "article:1"]
  ∧ StoreGetById 1 ∉ new_calls (ArticleUseCase.get_article 1) w1.
Proof.
  assert (N : new_calls (ArticleUseCase.get_article 1)
                (ArticleUseCase.create_article "T" "C" world_stale).2
              = [CacheGet "article:1"]) by (vm_compute; reflexivity).
  change (ArticleUseCase.create_article "T" "C" world_stale)
    with ((ArticleUseCase.create_article "T" "C" world_stale).1,
          (ArticleUseCase.create_article "T" "C" world_stale).2).
  cbv beta iota. rewrite N.
  split_and!; [vm_compute; reflexivity.. | reflexivity |].
  intros H. apply list_elem_of_In in H. destruct H as [H|[]]. discriminate H.
Qed.

(** C6, amended. [create_article] makes no call on the cache and leaves
    it as it was; so, when the cache held no true value under the key of
    the new article's id, the [get_article] that follows looks the key
    up in the cache, misses, and queries the store for that id. *)
Theorem create_article_not_cached title content w :
  let '(article, w1) := ArticleUseCase.create_article title content w in
  cache w1 = cache w
  ∧ filter is_cache_call
      (new_calls (ArticleUseCase.create_article title content) w) = []
  ∧ ∀ id, Article.id article = Some id →
      truthy (default PNone (cache w !! ArticleUseCase.article_key id))
      = false →
      ∃ rest,
        new_calls (ArticleUseCase.get_article id) w1
        = CacheGet (ArticleUseCase.article_key id) :: StoreGetById id :: rest.
Proof.
  pose proof (create_article_cache_frame title content w) as [Hc Hn].
  destruct (ArticleUseCase.create_article title content w) as [a w1].
  simpl in Hc. split_and!; [done..|].
  intros id _ Hmiss. rewrite <- Hc in Hmiss.
  destruct (get_article_cases id w1) as [(v & Hv & Ht & _)|[(b & _ & _ & E)|(_ & _ & E)]].
  - rewrite Hv in Hmiss. simpl in Hmiss. congruence.
  - eexists. apply new_calls_app. by rewrite E.
  - eexists. apply new_calls_app. by rewrite E.
Qed.

Lemma create_article_not_cached_witness :
  let '(article, w1) := ArticleUseCase.create_article "T" "C" empty_world in
  cache w1 = cache empty_world
  ∧ filter is_cache_call
      (new_calls (ArticleUseCase.create_article "T" "C") empty_world) = []
  ∧ ∃ rest,
      new_calls (ArticleUseCase.get_article 1) w1
      = CacheGet "article:1" :: StoreGetById 1 :: rest.
Proof.
  pose proof (create_article_not_cached "T" "C" empty_world) as H.
  simpl in H. destruct H as (H1 & H2 & H3).
  split_and!; [exact H1 | exact H2 | exact (H3 1 eq_refl eq_refl)].
Defined.

(** ** What [get_article] does to the cache and to the store *)

(** C7, as stated, fails: an empty string cached under [article:5] is
    replaced by the store's article. *)
Lemma get_article_overwrites_entry :
  cache world5_falsy !! "article:5" = Some (PStr "")
  ∧ cache (ArticleUseCase.get_article 5 world5_falsy).2 !! "article:5"
    = Some (PArticle article5).
Proof. split; reflexivity. Qed.

(** C7, amended. An entry of the cache under another key than
    ["article:" + id], or with a value that is true under Python's truth
    test, is still there with the same value after [get_article id]. No
    key leaves the cache, and the cache afterwards is the one before or
    the one before with the store's article written under
    ["article:" + id]: at most one entry is written. *)
Theorem get_article_insertion_only article_id w :
  let key := ArticleUseCase.article_key article_id in
  let w' := (ArticleUseCase.get_article article_id w).2 in
  (∀ k v, cache w !! k = Some v → k ≠ key ∨ truthy v = true →
          cache w' !! k = Some v)
  ∧ dom (cache w) ⊆ dom (cache w')
  ∧ (cache w' = cache w
     ∨ ∃ a, Session.query_filter_first article_id (db w) = Some a
            ∧ cache w' = <[key := PArticle a]> (cache w)).
Proof.
  intros key w'. subst key w'.
  destruct (get_article_cases article_id w)
    as [(v & Hv & Ht & E)|[(a & Hmiss & Hs & E)|(_ & _ & E)]];
    rewrite E; simpl.
  - split_and!; [done | done | by left].
  - split_and!.
    + intros k u Hk [Hne|Hu].
      * by rewrite lookup_insert_ne.
      * destruct (decide (k = ArticleUseCase.article_key article_id))
          as [Heq|Hne]; [|by rewrite lookup_insert_ne].
        rewrite Heq in Hk. rewrite Hk in Hmiss. simpl in Hmiss. congruence.
    + rewrite dom_insert_L. set_solver.
    + right. by exists a.
  - split_and!; [done | done | by left].
Qed.

Lemma get_article_insertion_only_witness :
  cache (ArticleUseCase.get_article 7 world5_cached).2 !! "article:5"
  = Some (PArticle cached5)
  ∧ cache (ArticleUseCase.get_article 5 world5_cached).2 !! "article:5"
    = Some (PArticle cached5).
Proof.
  split.
  - pose proof (get_article_insertion_only 7 world5_cached) as H.
    cbv zeta in H. destruct H as (H & _ & _).
    apply H; [reflexivity | left; vm_compute; discriminate].
  - pose proof (get_article_insertion_only 5 world5_cached) as H.
    cbv zeta in H. destruct H as (H & _ & _).
    apply H; [reflexivity | right; reflexivity].
Defined.

(** C9. The cache test is Python's truth test. When the cache holds
    under ["article:" + id] a value that is false under it,
    [get_article] goes on as on a miss: it queries the store and returns
    the store's answer; when the store has an article, that article
    replaces the cached value, and otherwise the cache is left alone. *)
Theorem get_article_falsy_is_miss article_id v w :
  cache w !! ArticleUseCase.article_key article_id = Some v →
  truthy v = false →
  let key := ArticleUseCase.article_key article_id in
  let '(result, w') := ArticleUseCase.get_article article_id w in
  result = of_option (Session.query_filter_first article_id (db w))
  ∧ (∃ rest, new_calls (ArticleUseCase.get_article article_id) w
             = CacheGet key :: StoreGetById article_id :: rest)
  ∧ match Session.query_filter_first article_id (db w) with
    | Some a => cache w' = <[key := PArticle a]> (cache w)
                ∧ cache w' !! key = Some (PArticle a)
    | None => cache w' = cache w
    end.
Proof.
  intros Hc Hf key.
  pose proof (truthy_falsy _ _ _ Hc Hf) as Hmiss.
  destruct (Session.query_filter_first article_id (db w)) as [a|] eqn:Hs.
  - pose proof (get_article_fill article_id w a Hmiss Hs) as E. rewrite E.
    simpl. split_and!; [done | | done | apply lookup_insert_eq].
    eexists. apply new_calls_app. by rewrite E.
  - pose proof (get_article_absent article_id w Hmiss Hs) as E. rewrite E.
    simpl. split_and!; [done | | done].
    eexists. apply new_calls_app. by rewrite E.
Qed.

Lemma get_article_falsy_is_miss_witness :
  let '(result, w') := ArticleUseCase.get_article 5 world5_falsy in
  result = PArticle article5
  ∧ (∃ rest, new_calls (ArticleUseCase.get_article 5) world5_falsy
             = CacheGet "article:5" :: StoreGetById 5 :: rest)
  ∧ cache w' = <["article:5" := PArticle article5]> (cache world5_falsy)
  ∧ cache w' !! "article:5" = Some (PArticle article5).
Proof.
  pose proof (get_article_falsy_is_miss 5 (PStr "") world5_falsy
                eq_refl eq_refl) as H.
  exact H.
Defined.

(** C10. [get_article] leaves the store as it was: it makes no [save]
    call, and the only call it can make on the store is [get_by_id] for
    the requested id. *)
Theorem get_article_store_frame article_id w :
  db (ArticleUseCase.get_article article_id w).2 = db w
  ∧ filter is_save_call (new_calls (ArticleUseCase.get_article article_id) w)
    = []
  ∧ ∀ e, e ∈ new_calls (ArticleUseCase.get_article article_id) w →
         is_store_call e = true → e = StoreGetById article_id.
Proof.
  destruct (get_article_cases article_id w)
    as [(v & _ & _ & E)|[(a & _ & _ & E)|(_ & _ & E)]].
  all: match type of E with _ = (_, ?w1) =>
         rewrite (new_calls_app _ w (drop (length (calls w)) (calls w1)))
           by (rewrite E; simpl; by rewrite drop_app_length)
       end.
  all: rewrite E; simpl; rewrite drop_app_length; split_and!; [done..|].
  all: intros e He Hs; apply list_elem_of_In in He; simpl in He.
  all: repeat (destruct He as [<-|He]; [done || discriminate Hs|]).
  all: done.
Qed.

Lemma get_article_store_frame_witness :
  db (ArticleUseCase.get_article 5 world5).2 = db world5
  ∧ filter is_save_call (new_calls (ArticleUseCase.get_article 5) world5) = []
  ∧ StoreGetById 5 = StoreGetById 5.
Proof.
  pose proof (get_article_store_frame 5 world5) as (H1 & H2 & H3).
  split_and!; [exact H1 | exact H2 |].
  apply (H3 (StoreGetById 5)); [|reflexivity].
  vm_compute. apply list_elem_of_In. simpl. tauto.
Defined.

(** ** The session provider *)

Section get_db.
Import Database.

(** Once finished, the generator stays finished and touches no
    session. *)
Lemma run_finished rs s : run rs Finished s = (Finished, s).
Proof. induction rs as [|[] rs IH]; simpl; auto. Qed.

(** Leaving the [yield] closes the session, whichever way the consumer
    resumes the generator. *)
Lemma get_db_leave r db s :
  (get_db r (AtYield db) s).1.2 = Finished
  ∧ (get_db r (AtYield db) s).2 = close db s.
Proof. by destruct r. Qed.
End get_db.

(** C8. The first [next] makes a session and yields it. From there every
    way of resuming the generator, the normal one after the request, an
    exception thrown in by a failed request, or [close], runs the
    [finally] clause: the generator is finished, [close] has been called
    on that session, exactly once, and the session is no longer open. An
    exception thrown in is raised again after the release, and nothing
    later reopens the session. *)
Theorem get_db_releases_session s :
  let '(o1, f1, s1) := Database.get_db Database.Next Database.Unstarted s in
  ∃ db,
    o1 = Database.Yield db ∧ f1 = Database.AtYield db
    ∧ db ∈ Database.live s1
    ∧ ∀ r,
        let '(o2, f2, s2) := Database.get_db r f1 s1 in
        f2 = Database.Finished
        ∧ (db ∉ Database.live s2)
        ∧ Database.closes s2 = Database.closes s ++ [db]
        ∧ (o2 = match r with
                | Database.Next => Database.StopIteration
                | Database.Throw exc => Database.Raise exc
                | Database.Close => Database.Return
                end)
        ∧ (∀ rs, Database.run rs f2 s2 = (Database.Finished, s2)).
Proof.
  simpl. exists (Database.made s).
  split_and!; [done | done | apply elem_of_union_l, elem_of_singleton_2; done |].
  intros r. destruct r; simpl.
  all: split_and!;
    [done
    | intros [_ Hn]%elem_of_difference; apply Hn, elem_of_singleton_2; done
    | done | done | intros rs; apply run_finished].
Qed.

(** ** Coherent states *)

Lemma article_key_inj i j :
  ArticleUseCase.article_key i = ArticleUseCase.article_key j → i = j.
Proof.
  unfold ArticleUseCase.article_key. simpl. intros [= H].
  by apply (inj pretty).
Qed.

Section store.
Import Session.

Lemma query_filter_first_Some i s a :
  query_filter_first i s = Some a → a ∈ rows s ∧ Article.id a = Some i.
Proof.
  unfold query_filter_first. intros H.
  apply head_Some_elem_of in H. by apply list_elem_of_filter in H as [? ?].
Qed.

(** An id no row has reached yet is not found. *)
Lemma query_filter_first_fresh s :
  (∀ a, a ∈ rows s → ∃ i, Article.id a = Some i ∧ i < next_id s) →
  query_filter_first (next_id s) s = None.
Proof.
  intros Hrows.
  destruct (query_filter_first (next_id s) s) as [a|] eqn:E; [|done].
  apply query_filter_first_Some in E as [Hin Hid].
  destruct (Hrows a Hin) as (i & Hi & Hlt). rewrite Hid in Hi.
  injection Hi as <-. lia.
Qed.

(** Appending a row does not change the answer for an id already found,
    and answers with the new row for its id when nothing was found. *)
Lemma query_filter_first_snoc i l n n' x :
  query_filter_first i (mk (l ++ [x]) n')
  = match query_filter_first i (mk l n) with
    | Some a => Some a
    | None => if decide (Article.id x = Some i) then Some x else None
    end.
Proof.
  unfold query_filter_first. simpl. rewrite filter_app.
  destruct (filter _ l) as [|a l'] eqn:E; simpl; [|done].
  rewrite filter_cons, filter_nil. by case_decide.
Qed.
End store.

(** A database with well-numbered rows and an empty cache is coherent. *)
Lemma coherent_empty_cache s l :
  (∀ a, a ∈ Session.rows s →
        ∃ i, Article.id a = Some i ∧ i < Session.next_id s) →
  coherent (mkWorld s ∅ l).
Proof.
  intros Hrows. split; [done|]. intros k v. simpl. by rewrite lookup_empty.
Qed.

(** Both operations of the service keep the state coherent. *)
Lemma coherent_get_article article_id w :
  coherent w → coherent (ArticleUseCase.get_article article_id w).2.
Proof.
  intros [Hrows Hcache].
  destruct (get_article_cases article_id w)
    as [(v & _ & _ & E)|[(a & _ & Hs & E)|(_ & _ & E)]];
    rewrite E; split; simpl; try done.
  intros k v. rewrite lookup_insert. case_decide as Hk.
  - intros [= <-]. by exists article_id, a.
  - apply Hcache.
Qed.

Lemma coherent_create_article title content w :
  coherent w → coherent (ArticleUseCase.create_article title content w).2.
Proof.
  intros [Hrows Hcache].
  unfold ArticleUseCase.create_article, mbind, St_bind, ArticleRepository.save.
  simpl. split; simpl.
  - intros a [Ha|Ha]%elem_of_app.
    + destruct (Hrows a Ha) as (i & Hi & Hlt). exists i. split; [done|lia].
    + apply list_elem_of_singleton in Ha as ->. eexists. split; [done|lia].
  - intros k v Hk. destruct (Hcache k v Hk) as (i & a & -> & -> & Hq).
    exists i, a. split_and!; [done..|].
    rewrite (query_filter_first_snoc i _ (Session.next_id (db w))).
    destruct (db w) as [l n]. simpl in *. by rewrite Hq.
Qed.

(** In a coherent state the cache is invisible: [get_article] answers
    what the store answers. *)
Lemma get_article_transparent article_id w :
  coherent w →
  (ArticleUseCase.get_article article_id w).1
  = of_option (Session.query_filter_first article_id (db w)).
Proof.
  intros [_ Hcache].
  destruct (get_article_cases article_id w)
    as [(v & Hv & _ & E)|[(a & _ & Hs & E)|(_ & Hs & E)]];
    rewrite E; simpl; [|by rewrite Hs..].
  destruct (Hcache _ _ Hv) as (i & a & Hk & -> & Hq).
  apply article_key_inj in Hk as <-. by rewrite Hq.
Qed.

(** X10. In a coherent state the article just created is never in the
    cache: the [get_article] that follows for its id misses the cache,
    reads the article from the store, returns it and caches it. *)
Lemma create_then_get_article title content w :
  coherent w →
  let '(article, w1) := ArticleUseCase.create_article title content w in
  let id := Session.next_id (db w) in
  Article.id article = Some id
  ∧ (ArticleUseCase.get_article id w1).1 = PArticle article
  ∧ new_calls (ArticleUseCase.get_article id) w1
    = [CacheGet (ArticleUseCase.article_key id); StoreGetById id;
       CacheSet (ArticleUseCase.article_key id) (PArticle article)].
Proof.
  intros [Hrows Hcache].
  pose proof (query_filter_first_fresh (db w) Hrows) as Hfresh.
  unfold ArticleUseCase.create_article, mbind, St_bind, ArticleRepository.save.
  simpl. set (id := Session.next_id (db w)) in *.
  set (article := Article.mk (Some id) title content).
  set (w1 := log _ _).
  assert (Hmiss : truthy (default PNone
                    (cache w1 !! ArticleUseCase.article_key id)) = false).
  { simpl. destruct (cache w !! ArticleUseCase.article_key id) as [v|] eqn:Hv;
      [|done].
    destruct (Hcache _ _ Hv) as (i & a & Hk & _ & Hq).
    apply article_key_inj in Hk as <-. congruence. }
  assert (Hq : Session.query_filter_first id (db w1) = Some article).
  { simpl. rewrite (query_filter_first_snoc id _ id).
    destruct (db w) as [l n]. simpl in *. subst id. rewrite Hfresh.
    by rewrite decide_True. }
  pose proof (get_article_fill id w1 article Hmiss Hq) as E.
  split_and!; [done | by rewrite E |]. apply new_calls_app. by rewrite E.
Qed.

(** * Further properties *)

(** ** The calls [get_article] makes *)

(** X1. The collaborator calls of [get_article], in every state: the
    cache lookup alone when the cached value is true; the lookup, the
    store query and one [set] with the store's article when the store has
    one; the lookup and the store query otherwise. *)
Theorem get_article_calls article_id w :
  let key := ArticleUseCase.article_key article_id in
  new_calls (ArticleUseCase.get_article article_id) w
  = if truthy (default PNone (cache w !! key)) then [CacheGet key]
    else match Session.query_filter_first article_id (db w) with
         | Some a => [CacheGet key; StoreGetById article_id;
                      CacheSet key (PArticle a)]
         | None => [CacheGet key; StoreGetById article_id]
         end.
Proof.
  intros key. subst key.
  destruct (get_article_cases article_id w)
    as [(v & Hv & Ht & E)|[(a & Hmiss & Hs & E)|(Hmiss & Hs & E)]].
  - rewrite Hv. simpl. rewrite Ht. apply new_calls_app. by rewrite E.
  - rewrite Hmiss, Hs. apply new_calls_app. by rewrite E.
  - rewrite Hmiss, Hs. apply new_calls_app. by rewrite E.
Qed.

(** X2. [get_article] returns [None] exactly when the cache holds no true
    value under the key and the store has no article with the id. *)
Theorem get_article_none_iff article_id w :
  (ArticleUseCase.get_article article_id w).1 = PNone
  ↔ truthy (default PNone
              (cache w !! ArticleUseCase.article_key article_id)) = false
    ∧ Session.query_filter_first article_id (db w) = None.
Proof.
  destruct (get_article_cases article_id w)
    as [(v & Hv & Ht & E)|[(a & Hmiss & Hs & E)|(Hmiss & Hs & E)]];
    rewrite E; simpl.
  - rewrite Hv. simpl. split.
    + intros ->. discriminate Ht.
    + intros [Hf _]. congruence.
  - rewrite Hs. split; [discriminate | by intros [_ ?]].
  - done.
Qed.

Lemma get_article_none_iff_witness :
  (ArticleUseCase.get_article 7 empty_world).1 = PNone.
Proof.
  apply (proj2 (get_article_none_iff 7 empty_world)).
  split; reflexivity.
Defined.

(** X3. Calling [get_article] again for the same id returns the same
    value and leaves cache and store as the first call left them. When
    the value is an article only the cache is asked; when it is [None]
    the store is asked again, every time. *)
Theorem get_article_idempotent article_id w :
  let key := ArticleUseCase.article_key article_id in
  let '(r1, w1) := ArticleUseCase.get_article article_id w in
  let '(r2, w2) := ArticleUseCase.get_article article_id w1 in
  r2 = r1 ∧ cache w2 = cache w1 ∧ db w2 = db w1
  ∧ new_calls (ArticleUseCase.get_article article_id) w1
    = if truthy r1 then [CacheGet key]
      else [CacheGet key; StoreGetById article_id].
Proof.
  intros key. subst key.
  destruct (get_article_cases article_id w)
    as [(v & Hv & Ht & E)|[(a & Hmiss & Hs & E)|(Hmiss & Hs & E)]];
    rewrite E.
  - pose proof (get_article_hit article_id (log (CacheGet
      (ArticleUseCase.article_key article_id)) w) v Hv Ht) as E1.
    rewrite E1, Ht. split_and!; [done..|]. apply new_calls_app.
    by rewrite E1.
  - match goal with |- context [ArticleUseCase.get_article _ ?w1] =>
      pose proof (get_article_hit article_id w1 (PArticle a)
                    (lookup_insert_eq _ _ _) eq_refl) as E1
    end.
    rewrite E1. split_and!; [done..|]. apply new_calls_app. by rewrite E1.
  - match goal with |- context [ArticleUseCase.get_article _ ?w1] =>
      pose proof (get_article_absent article_id w1 Hmiss Hs) as E1
    end.
    rewrite E1. split_and!; [done..|]. apply new_calls_app. by rewrite E1.
Qed.

(** ** Reads of different articles *)

(** What a call leaves behind and returns, as a function of the cached
    value under the key and of the store's answer. *)
Lemma get_article_effect article_id w :
  let key := ArticleUseCase.article_key article_id in
  let cached := default PNone (cache w !! key) in
  let stored := Session.query_filter_first article_id (db w) in
  (ArticleUseCase.get_article article_id w).1
  = (if truthy cached then cached else of_option stored)
  ∧ cache (ArticleUseCase.get_article article_id w).2
    = (if truthy cached then cache w
       else match stored with
            | Some a => <[key := PArticle a]> (cache w)
            | None => cache w
            end)
  ∧ db (ArticleUseCase.get_article article_id w).2 = db w.
Proof.
  intros key cached stored. subst key cached stored.
  destruct (get_article_cases article_id w)
    as [(v & Hv & Ht & E)|[(a & Hmiss & Hs & E)|(Hmiss & Hs & E)]];
    rewrite E; simpl.
  - rewrite Hv. simpl. by rewrite Ht.
  - by rewrite Hmiss, Hs.
  - by rewrite Hmiss, Hs.
Qed.

Lemma get_article_other_key article_id w k :
  k ≠ ArticleUseCase.article_key article_id →
  cache (ArticleUseCase.get_article article_id w).2 !! k = cache w !! k.
Proof.
  intros Hk. destruct (get_article_effect article_id w) as (_ & -> & _).
  destruct (truthy _); [done|].
  destruct (Session.query_filter_first _ _); [|done].
  by rewrite lookup_insert_ne.
Qed.

(** X4. Distinct ids never share a cache key. *)
Theorem article_key_distinct i j :
  i ≠ j → ArticleUseCase.article_key i ≠ ArticleUseCase.article_key j.
Proof. intros Hne Hk. by apply Hne, article_key_inj. Qed.

Lemma article_key_distinct_witness :
  ArticleUseCase.article_key 1 ≠ ArticleUseCase.article_key 11.
Proof. apply (article_key_distinct 1 11). lia. Defined.

(** X5. Reads of two different articles do not interfere: each returns
    what it would have returned without the other, and cache and store
    end up the same in either order. *)
Theorem get_article_commute i j w :
  i ≠ j →
  let wi := (ArticleUseCase.get_article i w).2 in
  let wj := (ArticleUseCase.get_article j w).2 in
  (ArticleUseCase.get_article j wi).1 = (ArticleUseCase.get_article j w).1
  ∧ (ArticleUseCase.get_article i wj).1 = (ArticleUseCase.get_article i w).1
  ∧ cache (ArticleUseCase.get_article j wi).2
    = cache (ArticleUseCase.get_article i wj).2
  ∧ db (ArticleUseCase.get_article j wi).2
    = db (ArticleUseCase.get_article i wj).2.
Proof.
  intros Hne wi wj.
  assert (Hij : ArticleUseCase.article_key j ≠ ArticleUseCase.article_key i).
  { intros Hk. by apply Hne, eq_sym, article_key_inj. }
  assert (Hji : ArticleUseCase.article_key i ≠ ArticleUseCase.article_key j).
  { intros Hk. by apply Hne, article_key_inj. }
  destruct (get_article_effect j wi) as (Rj' & Cj' & Dj').
  destruct (get_article_effect i wj) as (Ri' & Ci' & Di').
  destruct (get_article_effect j w) as (Rj & Cj & Dj).
  destruct (get_article_effect i w) as (Ri & Ci & Di).
  fold wi in Ci, Di. fold wj in Cj, Dj.
  assert (Li : cache wi !! ArticleUseCase.article_key j
               = cache w !! ArticleUseCase.article_key j)
    by (by apply get_article_other_key).
  assert (Lj : cache wj !! ArticleUseCase.article_key i
               = cache w !! ArticleUseCase.article_key i)
    by (by apply get_article_other_key).
  rewrite Rj', Ri', Cj', Ci', Dj', Di', Li, Lj, Di, Dj, Rj, Ri, Ci, Cj.
  split_and!; [done | done | | done].
  destruct (truthy (default PNone (cache w !! ArticleUseCase.article_key i)));
    destruct (truthy (default PNone (cache w !! ArticleUseCase.article_key j)));
    try done.
  destruct (Session.query_filter_first i (db w));
    destruct (Session.query_filter_first j (db w)); try done.
  by apply insert_insert_ne.
Qed.

Lemma get_article_commute_witness :
  (ArticleUseCase.get_article 5
     (ArticleUseCase.get_article 7 world5).2).1 = PArticle article5.
Proof.
  pose proof (get_article_commute 7 5 world5 ltac:(lia)) as H.
  cbv zeta in H. destruct H as (H & _).
  etrans; [exact H|]. vm_compute. reflexivity.
Defined.

(** ** The handler, whatever the service returns *)

(** X6. The handler adds no call of its own, and its return value is
    decided by [None] alone: the error pair when the service returned
    [None], and the dictionary [{"data": result}] for every other result
    of the service. *)
Theorem handler_wraps_result id w :
  let '(result, w1) := ArticleUseCase.get_article id w in
  ArticleController.get_article id w
  = (match result with
     | PNone =>
         PTuple [PDict [("error", PStr "Article not found")]; PInt 404]
     | _ => PDict [("data", result)]
     end, w1).
Proof.
  pose proof (get_article_result id w) as Hr.
  unfold ArticleController.get_article, mbind, St_bind.
  destruct (ArticleUseCase.get_article id w) as [r w1]. simpl in *.
  destruct Hr as [Ht | ->]; [|done].
  rewrite Ht. by destruct r.
Qed.

(** ** The repository *)

(** X7. [get_by_id] changes neither store nor cache, and answers with the
    first row whose id is the requested one: [None] exactly when no row
    has that id, and otherwise a row of the table with that id. *)
Theorem get_by_id_first_match article_id w :
  let '(result, w') := ArticleRepository.get_by_id article_id w in
  db w' = db w ∧ cache w' = cache w
  ∧ ((result = PNone
      ∧ Forall (λ a, Article.id a ≠ Some article_id) (Session.rows (db w)))
     ∨ (∃ a before after,
          result = PArticle a ∧ Article.id a = Some article_id
          ∧ Session.rows (db w) = before ++ a :: after
          ∧ Forall (λ b, Article.id b ≠ Some article_id) before)).
Proof.
  unfold ArticleRepository.get_by_id, Session.query_filter_first. simpl.
  split_and!; [done..|].
  induction (Session.rows (db w)) as [|x l IH]; simpl.
  - left. by split.
  - rewrite filter_cons. case_decide as Hx; simpl.
    + right. exists x, [], l. by split_and!.
    + destruct IH as [[E F]|(a & before & after & E & Ha & -> & F)].
      * left. rewrite E. split; [done|]. by constructor.
      * right. exists a, (x :: before), after. rewrite E.
        split_and!; [done..|]. by constructor.
Qed.

(** ** Creation and the store's answers *)

(** X8. [create_article] never changes what the store answers for an id
    it already had an article for; the one answer that can change is the
    one for the new id, from nothing to the created article. *)
Theorem create_article_keeps_answers title content w i :
  let '(article, w') := ArticleUseCase.create_article title content w in
  Session.query_filter_first i (db w')
  = match Session.query_filter_first i (db w) with
    | Some a => Some a
    | None => if decide (i = Session.next_id (db w)) then Some article
              else None
    end.
Proof.
  unfold ArticleUseCase.create_article, mbind, St_bind, ArticleRepository.save.
  simpl. rewrite (query_filter_first_snoc i _ (Session.next_id (db w))).
  destruct (db w) as [l n]. simpl.
  destruct (Session.query_filter_first i _); [done|].
  repeat case_decide; simplify_eq; done.
Qed.

(** ** The service on coherent states *)

Lemma coherent_run_op o w : coherent w → coherent (run_op o w).
Proof.
  destruct o; simpl;
    [apply coherent_get_article | apply coherent_create_article].
Qed.

Lemma coherent_run_ops ops w : coherent w → coherent (run_ops ops w).
Proof.
  revert w. induction ops as [|o ops IH]; intros w Hw; [done|].
  apply IH. by apply coherent_run_op.
Qed.

Lemma coherent_world5 : coherent world5.
Proof.
  apply coherent_empty_cache. intros a Ha.
  apply list_elem_of_singleton in Ha as ->. exists 5. by split.
Qed.

(** X9. From a coherent state, whatever calls of [get_article] and
    [create_article] follow, the state stays coherent and the cache never
    shows: [get_article] returns what the store answers for the id at
    that moment. *)
Theorem service_cache_transparent ops article_id w :
  coherent w →
  let w' := run_ops ops w in
  coherent w'
  ∧ (ArticleUseCase.get_article article_id w').1
    = of_option (Session.query_filter_first article_id (db w')).
Proof.
  intros Hw w'. assert (Hw' : coherent w') by by apply coherent_run_ops.
  split; [done|]. by apply get_article_transparent.
Qed.

Lemma service_cache_transparent_witness :
  (ArticleUseCase.get_article 6
     (run_ops [OpGet 5; OpCreate "T" "C"; OpGet 6; OpGet 9] world5)).1
  = PArticle (Article.mk (Some 6) "T" "C").
Proof.
  pose proof (service_cache_transparent
                [OpGet 5; OpCreate "T" "C"; OpGet 6; OpGet 9] 6 world5
                coherent_world5) as H.
  cbv zeta in H. destruct H as [_ H].
  etrans; [exact H|]. vm_compute. reflexivity.
Defined.

Lemma create_then_get_article_witness :
  (ArticleUseCase.get_article 6
     (ArticleUseCase.create_article "T" "C" world5).2).1
  = PArticle (Article.mk (Some 6) "T" "C").
Proof.
  pose proof (create_then_get_article "T" "C" world5 coherent_world5) as H.
  simpl in H. destruct H as (_ & H & _). exact H.
Defined.

(** X11. In a coherent state the handler's return value is decided by the
    store alone: [{"data": article}] with the store's article when the
    store has one for the id, and the error pair otherwise. *)
Theorem handler_coherent id w :
  coherent w →
  (ArticleController.get_article id w).1
  = match Session.query_filter_first id (db w) with
    | Some a => PDict [("data", PArticle a)]
    | None => PTuple [PDict [("error", PStr "Article not found")]; PInt 404]
    end.
Proof.
  intros Hw. pose proof (get_article_transparent id w Hw) as Hr.
  destruct (Session.query_filter_first id (db w)) as [a|]; simpl in Hr.
  - rewrite handler_found by (by rewrite Hr). by rewrite Hr.
  - by apply handler_not_found.
Qed.

Lemma handler_coherent_witness :
  (ArticleController.get_article 5 world5).1
  = PDict [("data", PArticle article5)].
Proof. exact (handler_coherent 5 world5 coherent_world5). Defined.

(** ** Every run of the session provider *)

(** X12. Whatever the sequence of resumptions, [get_db] makes at most one
    session and closes nothing else. A generator that never ran made
    none; one suspended at the [yield] holds the one session, open;
    a finished one either was thrown into or closed before its first
    [next] and made no session, or has made one session and closed it,
    once. *)
Theorem get_db_runs rs s :
  let '(f, s') := Database.run rs Database.Unstarted s in
  match f with
  | Database.Unstarted => rs = [] ∧ s' = s
  | Database.AtYield db =>
      rs = [Database.Next] ∧ db = Database.made s
      ∧ s' = (Database.SessionLocal s).2
  | Database.Finished =>
      (∃ r rs', rs = r :: rs' ∧ r ≠ Database.Next ∧ s' = s)
      ∨ (∃ r rs', rs = Database.Next :: r :: rs'
                  ∧ s' = Database.close (Database.made s)
                           (Database.SessionLocal s).2)
  end.
Proof.
  destruct rs as [|r1 rs1]; simpl; [done|].
  destruct r1; simpl.
  - destruct rs1 as [|r2 rs2]; simpl; [done|].
    destruct r2; simpl; rewrite run_finished; right; eauto.
  - rewrite run_finished. left. eauto.
  - rewrite run_finished. left. eauto.
Qed.

(** ** The article returned *)

(** X13. In a coherent state an article returned by [get_article] is a
    row of the store and carries the requested id, whether it came from
    the cache or from the store. *)
Theorem get_article_right_id article_id w :
  coherent w →
  (ArticleUseCase.get_article article_id w).1 = PNone
  ∨ ∃ a, (ArticleUseCase.get_article article_id w).1 = PArticle a
         ∧ Article.id a = Some article_id
         ∧ a ∈ Session.rows (db w).
Proof.
  intros Hw. rewrite (get_article_transparent article_id w Hw).
  destruct (Session.query_filter_first article_id (db w)) as [a|] eqn:Hq;
    [right | by left].
  apply query_filter_first_Some in Hq as [Hin Hid]. by exists a.
Qed.

Lemma get_article_right_id_witness :
  (ArticleUseCase.get_article 5 world5).1 = PNone
  ∨ ∃ a, (ArticleUseCase.get_article 5 world5).1 = PArticle a
         ∧ Article.id a = Some 5
         ∧ a ∈ Session.rows (db world5).
Proof. exact (get_article_right_id 5 world5 coherent_world5). Defined.
